(** * Guards: the NestJS authorization guards of the Guards walkthrough

    A shallow embedding of [src/guards/auth.guard.ts],
    [src/guards/business.guard.ts], the [AuthMetaData] decorator and the
    controllers that bind the guards, together with the properties the
    specification states about them.

    JavaScript values are an inductive type, objects used as maps are
    [gmap string _], and the guards are written in a small state-and-exception
    monad: the state is the request object the execution context hands out,
    the exception is the [TypeError] a property read on [undefined] or [null]
    raises. *)

From Stdlib Require Import ZArith.
From stdpp Require Import base option list strings gmap.

Open Scope string_scope.

(** ** JavaScript values *)

Module Js.

(** The values a header mapping or the request can hold.  Numbers stand for
    their integral values: the guards never compute with one, they only test
    truthiness and strict equality with a string literal. *)
#[local] Unset Elimination Schemes.
Inductive JsValue : Type :=
| JsUndefined
| JsNull
| JsBool (b : bool)
| JsNumber (n : Z)
| JsString (s : string)
| JsArray (elems : list JsValue)
| JsObject (props : gmap string JsValue).
#[local] Set Elimination Schemes.

(** ToBoolean: what [if (v)] and [v && ...] test. *)
Definition to_boolean (v : JsValue) : bool :=
  match v with
  | JsUndefined | JsNull => false
  | JsBool b => b
  | JsNumber n => negb (n =? 0)%Z
  | JsString s => negb (String.eqb s "")
  | JsArray _ | JsObject _ => true
  end.

(** [x === y].  Operands of different types are never equal; arrays and
    objects compare by identity, which a value here does not carry, and the
    guards only ever compare with a string literal. *)
Definition strict_equals (x y : JsValue) : bool :=
  match x, y with
  | JsUndefined, JsUndefined => true
  | JsNull, JsNull => true
  | JsBool a, JsBool b => Bool.eqb a b
  | JsNumber a, JsNumber b => (a =? b)%Z
  | JsString a, JsString b => String.eqb a b
  | _, _ => false
  end.

Inductive JsError : Type :=
| TypeError (message : string).

(** How an evaluation ends: with a value, or by throwing. *)
Inductive Completion (A : Type) : Type :=
| Normal (a : A)
| Throw (e : JsError).
Arguments Normal {A} a.
Arguments Throw {A} e.

(** [Array.prototype.includes] on an array of strings. *)
Fixpoint includes (arr : list string) (x : string) : bool :=
  match arr with
  | [] => false
  | y :: rest => String.eqb y x || includes rest x
  end.

(** [arr?.includes(x)]: [undefined] when [arr] is [undefined]. *)
Definition optional_includes (arr : option (list string)) (x : string) : JsValue :=
  match arr with
  | None => JsUndefined
  | Some l => JsBool (includes l x)
  end.

End Js.
Export Js.

(** ** The request and the evaluation monad *)

(** The request object of the HTTP adapter; the guards read its [headers]
    property and nothing else.  [headers] is the header mapping, a
    [JsObject]; the type leaves room for a request without one. *)
Record Request : Type := mkRequest {
  headers : JsValue
}.

(** A computation over the request that may throw. *)
Definition Eval (A : Type) : Type := Request -> Completion A * Request.

Definition ret {A} (a : A) : Eval A := fun req => (Normal a, req).

Definition throw {A} (e : JsError) : Eval A := fun req => (Throw e, req).

Definition bind {A B} (m : Eval A) (k : A -> Eval B) : Eval B :=
  fun req =>
    match m req with
    | (Normal a, req') => k a req'
    | (Throw e, req') => (Throw e, req')
    end.

Notation "'let!' x ':=' m 'in' k" := (bind m (fun x => k))
  (at level 10, x name, m at level 100, k at level 200).

(** [obj[name]] and [obj.name].  Own data properties only: the members
    inherited from the built-in prototypes are not modelled, and neither
    ["api_key"] nor ["business_id"] is one of them. *)
Definition get_property (obj : JsValue) (name : string) : Eval JsValue :=
  match obj with
  | JsUndefined =>
      throw (TypeError ("Cannot read properties of undefined (reading '" ++ name ++ "')"))
  | JsNull =>
      throw (TypeError ("Cannot read properties of null (reading '" ++ name ++ "')"))
  | JsObject props => ret (default JsUndefined (props !! name))
  | JsBool _ | JsNumber _ | JsString _ | JsArray _ => ret JsUndefined
  end.

(** [a && b]: [b] is evaluated only when [a] is truthy. *)
Definition js_and (a : JsValue) (b : Eval JsValue) : Eval JsValue :=
  if to_boolean a then b else ret a.

(** ** The execution context *)

(** What [getHandler()] and [getClass()] return: the identity of a route
    handler or of a controller class. *)
Inductive Target : Type :=
| ClassRef (cls : string)
| HandlerRef (cls method : string).

#[global] Instance Target_eq_dec : EqDecision Target.
Proof. solve_decision. Defined.

#[global] Instance Target_countable : Countable Target.
Proof.
  refine (inj_countable'
            (fun t => match t with
                      | ClassRef c => inl c
                      | HandlerRef c m => inr (c, m)
                      end)
            (fun x => match x with
                      | inl c => ClassRef c
                      | inr (c, m) => HandlerRef c m
                      end) _).
  intros []; reflexivity.
Defined.

(** The request the context refers to is the state of [Eval]. *)
Record ExecutionContext : Type := mkContext {
  getHandler : Target;
  getClass : Target
}.

Definition getRequest (context : ExecutionContext) : Eval Request :=
  fun req => (Normal req, req).

(** ** Metadata: the decorator and the reflector *)

(** The reflection store: for each handler or class, the values attached to
    it under a metadata key. *)
Abbreviation MetadataStore := (gmap Target (gmap string (list string))).

(** Modelled from the spec: [SetMetadata] of the framework, which is not
    part of the sources.  It is the "metadata attacher" of the
    specification: the decorator it builds stores the sequence under the key
    for whatever handler or group it decorates. *)
Definition SetMetadata (key : string) (value : list string)
    (target : Target) (store : MetadataStore) : MetadataStore :=
  <[target := <[key := value]> (default ∅ (store !! target))]> store.

(** [export const AuthMetaData = (...metadata: string[]) =>
      SetMetadata('authorized', metadata);] *)
Definition AuthMetaData (metadata : list string)
    : Target -> MetadataStore -> MetadataStore :=
  SetMetadata "authorized" metadata.

(** Modelled from the spec: the reflection lookup of one attachment site,
    [undefined] when the site defines nothing under the key. *)
Definition getMetadata (store : MetadataStore) (key : string) (target : Target)
    : option (list string) :=
  store !! target ≫= fun attached => attached !! key.

(** Modelled from the spec: the override lookup behind
    [Reflector.getAllAndOverride], which the framework implements and the
    sources only call.  The sites are asked in the order given (handler,
    then group); the first definition found wins, whole. *)
Fixpoint override_lookup (store : MetadataStore) (key : string)
    (targets : list Target) : option (list string) :=
  match targets with
  | [] => None
  | target :: others =>
      match getMetadata store key target with
      | Some value => Some value
      | None => override_lookup store key others
      end
  end.

(** The injected [Reflector], as far as the guard uses it.  The result is
    typed as the source types it: [string[]], or [undefined]. *)
Record Reflector : Type := mkReflector {
  getAllAndOverride : string -> list Target -> option (list string)
}.

Definition store_reflector (store : MetadataStore) : Reflector :=
  {| getAllAndOverride := override_lookup store |}.

(** ** The guards *)

Module AuthGuard.

(** [constructor(private reflector: Reflector) {}] *)
Record t : Type := new {
  reflector : Reflector
}.

(** [canActivate] of [auth.guard.ts]. *)
Definition canActivate (this : t) (context : ExecutionContext) : Eval bool :=
  let! request := getRequest context in
  let apiKey := headers request in
  let authMetaData :=
    getAllAndOverride (reflector this) "authorized"
      [getHandler context; getClass context] in
  if to_boolean (optional_includes authMetaData "SkipAuthorizationCheck")
  then ret true
  else
    let! cond :=
      js_and apiKey
        (let! key := get_property apiKey "api_key" in
         ret (JsBool (strict_equals key (JsString "MY_API_KEY")))) in
    if to_boolean cond then ret true else ret false.

End AuthGuard.

Module BusinessGuard.

(** The class has no fields and no constructor. *)
Inductive t : Type := new.

(** [canActivate] of [business.guard.ts]. *)
Definition canActivate (this : t) (context : ExecutionContext) : Eval bool :=
  let! request := getRequest context in
  let! businessID := get_property (headers request) "business_id" in
  let! cond :=
    js_and businessID
      (ret (JsBool (strict_equals businessID (JsString "892367480")))) in
  if to_boolean cond then ret true else ret false.

End BusinessGuard.

(** The [CanActivate] interface both classes implement. *)
Class CanActivate (G : Type) : Type :=
  canActivate : G -> ExecutionContext -> Eval bool.

#[global] Instance AuthGuard_CanActivate : CanActivate AuthGuard.t :=
  AuthGuard.canActivate.

#[global] Instance BusinessGuard_CanActivate : CanActivate BusinessGuard.t :=
  BusinessGuard.canActivate.

(** A guard instance bound to a route: one of the two classes. *)
Inductive Guard : Type :=
| UseAuthGuard (g : AuthGuard.t)
| UseBusinessGuard (g : BusinessGuard.t).

#[global] Instance Guard_CanActivate : CanActivate Guard :=
  fun guard =>
    match guard with
    | UseAuthGuard g => canActivate g
    | UseBusinessGuard g => canActivate g
    end.

(** ** Binding and composition *)

(** [@UseGuards(AuthGuard, BusinessGuard)] on [AppController.test]; the
    framework builds the instances and injects the reflector. *)
Definition AppController_test_guards (reflector : Reflector) : list Guard :=
  [UseAuthGuard (AuthGuard.new reflector); UseBusinessGuard BusinessGuard.new].

(** What the router did for one request: the guards it invoked, in order,
    how the pass ended, and the request afterwards. *)
Record Activation (G : Type) : Type := mkActivation {
  invoked : list G;
  verdict : Completion bool;
  request_after : Request
}.
Arguments mkActivation {G} _ _ _.
Arguments invoked {G} _.
Arguments verdict {G} _.
Arguments request_after {G} _.

(** Modelled from the spec: the composition policy of the router, which is
    framework code the sources do not contain.  The bound guards are
    evaluated strictly in order against the shared context; the first deny
    stops the pass with a rejection; when all allow, the handler is
    dispatched.  A guard that throws ends the pass with its exception. *)
Fixpoint tryActivate {G} `{CanActivate G} (guards : list G)
    (context : ExecutionContext) (req : Request) : Activation G :=
  match guards with
  | [] => mkActivation [] (Normal true) req
  | guard :: others =>
      match canActivate guard context req with
      | (Normal true, req') =>
          let rest := tryActivate others context req' in
          mkActivation (guard :: invoked rest) (verdict rest) (request_after rest)
      | (Normal false, req') => mkActivation [guard] (Normal false) req'
      | (Throw e, req') => mkActivation [guard] (Throw e) req'
      end
  end.

(** Evaluating a sequence of guards one after the other whatever they
    answer, as sibling evaluations on the same request would: the request
    each one leaves is the request the next one sees. *)
Fixpoint request_after_all {G} `{CanActivate G} (guards : list G)
    (context : ExecutionContext) (req : Request) : Request :=
  match guards with
  | [] => req
  | guard :: others =>
      request_after_all others context (snd (canActivate guard context req))
  end.

(** The header mapping [H] of a request, and the request that carries it. *)
Definition request_with (H : gmap string JsValue) : Request :=
  mkRequest (JsObject H).

(** [H['name']]: [undefined] when the key is absent. *)
Definition header (H : gmap string JsValue) (name : string) : JsValue :=
  default JsUndefined (H !! name).

(** The bypass tag the credential guard looks for, and what "no bypass
    metadata applies" means: whatever sequence the lookup resolves to, the
    tag is not in it. *)
Definition bypass_tag : string := "SkipAuthorizationCheck".

Definition resolved_metadata (this : AuthGuard.t) (context : ExecutionContext)
    : option (list string) :=
  getAllAndOverride (AuthGuard.reflector this) "authorized"
    [getHandler context; getClass context].

Definition no_bypass (this : AuthGuard.t) (context : ExecutionContext) : Prop :=
  forall tags, resolved_metadata this context = Some tags -> bypass_tag ∉ tags.

(** The credential check proper, on a request whose [headers] is [h]:
    the answer without the bypass. *)
Definition credential_verdict (h : JsValue) : bool :=
  match h with
  | JsObject H =>
      match H !! "api_key" with
      | Some (JsString key) => String.eqb key "MY_API_KEY"
      | _ => false
      end
  | _ => false
  end.

(** The business guard on a header mapping. *)
Definition business_verdict (H : gmap string JsValue) : bool :=
  match H !! "business_id" with
  | Some (JsString id) => String.eqb id "892367480"
  | _ => false
  end.

(** ** The application of the walkthrough *)

(** [AppController] and its routes. *)
Definition AppController : Target := ClassRef "AppController".
Definition AppController_getHello : Target := HandlerRef "AppController" "getHello".
Definition AppController_test : Target := HandlerRef "AppController" "test".
Definition AppController_getPublic : Target := HandlerRef "AppController" "getPublic".

(** The metadata the decorators of [app.controller.ts] attach: only
    [getPublic] carries [@AuthMetaData('SkipAuthorizationCheck')]. *)
Definition app_metadata : MetadataStore :=
  AuthMetaData ["SkipAuthorizationCheck"] AppController_getPublic ∅.

(** The context the router builds for a request to a route. *)
Definition context_of (handler : Target) : ExecutionContext :=
  mkContext handler AppController.

(** The guard instance the application runs with. *)
Definition app_AuthGuard : AuthGuard.t :=
  AuthGuard.new (store_reflector app_metadata).

(** ** The guard as the walkthrough first writes it *)

Module AuthGuardStep2.

(** The class of step 2, before the metadata check is added: it has no
    constructor and no reflector. *)
Inductive t : Type := new.

(** [canActivate] of the first [auth.guard.ts]. *)
Definition canActivate (this : t) (context : ExecutionContext) : Eval bool :=
  let! request := getRequest context in
  let apiKey := headers request in
  let! cond :=
    js_and apiKey
      (let! key := get_property apiKey "api_key" in
       ret (JsBool (strict_equals key (JsString "MY_API_KEY")))) in
  if to_boolean cond then ret true else ret false.

End AuthGuardStep2.

(** ** The bindings of [app.controller.ts] *)

(** The routes [AppController] declares. *)
Definition AppController_routes : list Target :=
  [AppController_getHello; AppController_test; AppController_getPublic].

(** [@UseGuards(AuthGuard)] on the class. *)
Definition AppController_class_guards (reflector : Reflector) : list Guard :=
  [UseAuthGuard (AuthGuard.new reflector)].

(** Modelled from the spec: the binding table of the router, the guards of
    the three scopes concatenated, process-wide ones first. *)
Definition guards_for (global group handler : list Guard) : list Guard :=
  global ++ group ++ handler.

(** The guards of a route of the application: [main.ts] binds none
    process-wide (the call is commented out), the class binds [AuthGuard],
    no route binds one of its own. *)
Definition app_guards (route : Target) : list Guard :=
  guards_for [] (AppController_class_guards (store_reflector app_metadata)) [].

(** The pass the router makes for a request to a route of the application. *)
Definition app_pass (route : Target) (req : Request) : Activation Guard :=
  tryActivate (app_guards route) (context_of route) req.

(** ** A context that holds no request *)

(** What [context.switchToHttp().getRequest()] hands out.  The call is typed
    [any]: the HTTP adapter hands out the request object, a context of
    another kind may hand out [undefined] or [null].  Anything else that is
    handed out has a [headers] property, [undefined] when it holds none, and
    is a [Request]. *)
Inductive Handed : Type :=
| HandedUndefined
| HandedNull
| HandedRequest (req : Request).

(** The read [request.headers] on what was handed out.  Both guards make it
    first, before any other test ([const apiKey = request.headers] in
    [auth.guard.ts], [request.headers['business_id']] in
    [business.guard.ts]): on [undefined] and on [null] it throws, on a
    request the guard goes on as [canActivate] says. *)
Definition on_handed (guard : Eval bool) (handed : Handed)
    : Completion bool * Handed :=
  match handed with
  | HandedUndefined =>
      (Throw (TypeError "Cannot read properties of undefined (reading 'headers')"),
       HandedUndefined)
  | HandedNull =>
      (Throw (TypeError "Cannot read properties of null (reading 'headers')"),
       HandedNull)
  | HandedRequest req =>
      let (outcome, req') := guard req in (outcome, HandedRequest req')
  end.

(** The two guards on whatever the context hands out. *)
Definition AuthGuard_on_context (this : AuthGuard.t)
    (context : ExecutionContext) (handed : Handed) : Completion bool * Handed :=
  on_handed (AuthGuard.canActivate this context) handed.


(** * Properties *)

(** ** Facts about the JavaScript primitives *)

Lemma includes_elem_of (arr : list string) (x : string) :
  includes arr x = true <-> x ∈ arr.
Proof.
  induction arr as [|y rest IH]; simpl.
  - split; [discriminate | intros Hin; inversion Hin].
  - rewrite orb_true_iff, IH, elem_of_cons, String.eqb_eq.
    split; intros [Heq | Hin]; auto.
Qed.

Lemma includes_not_elem_of (arr : list string) (x : string) :
  includes arr x = false <-> x ∉ arr.
Proof.
  rewrite <- includes_elem_of.
  destruct (includes arr x); split; intros; congruence.
Qed.

Lemma strict_equals_string (v : JsValue) (s : string) :
  strict_equals v (JsString s) = true <-> v = JsString s.
Proof.
  destruct v; simpl; try (split; [discriminate | intros E; inversion E]).
  rewrite String.eqb_eq. split; intros E; [subst | inversion E]; reflexivity.
Qed.

(** ** How the two guards run *)

Ltac unfold_guard :=
  unfold AuthGuard.canActivate, BusinessGuard.canActivate,
    bind, getRequest, js_and, get_property, ret, throw.


Lemma no_bypass_falsy (this : AuthGuard.t) (context : ExecutionContext) :
  no_bypass this context ->
  to_boolean (optional_includes (resolved_metadata this context) bypass_tag) = false.
Proof.
  intros Hno. destruct (resolved_metadata this context) as [tags|] eqn:E; simpl.
  - apply includes_not_elem_of, Hno. exact E.
  - reflexivity.
Qed.

(** The whole guard in one equation: it answers, it leaves the request as
    it was, and it allows on the bypass tag or else on the credential. *)
Lemma AuthGuard_run (this : AuthGuard.t) (context : ExecutionContext)
    (req : Request) :
  AuthGuard.canActivate this context req
  = (Normal
       (to_boolean (optional_includes (resolved_metadata this context) bypass_tag)
        || credential_verdict (headers req)),
     req).
Proof.
  unfold resolved_metadata, bypass_tag. unfold_guard.
  destruct (to_boolean (optional_includes _ _)); [reflexivity|].
  destruct req as [h]; simpl.
  destruct h as [| |b|n|s|elems|H]; simpl; try reflexivity.
  - destruct b; reflexivity.
  - destruct (n =? 0)%Z eqn:En; simpl; rewrite ?En; reflexivity.
  - destruct (String.eqb s "") eqn:Es; simpl; rewrite ?Es; reflexivity.
  - destruct (H !! "api_key") as [v|]; simpl; [|reflexivity].
    destruct v; simpl; try reflexivity.
    destruct (String.eqb s "MY_API_KEY"); reflexivity.
Qed.

Lemma AuthGuard_run_no_bypass (this : AuthGuard.t) (context : ExecutionContext)
    (req : Request) :
  no_bypass this context ->
  AuthGuard.canActivate this context req
  = (Normal (credential_verdict (headers req)), req).
Proof.
  intros Hno. rewrite AuthGuard_run, (no_bypass_falsy _ _ Hno). reflexivity.
Qed.

Lemma AuthGuard_run_bypass (this : AuthGuard.t) (context : ExecutionContext)
    (req : Request) (tags : list string) :
  resolved_metadata this context = Some tags ->
  bypass_tag ∈ tags ->
  AuthGuard.canActivate this context req = (Normal true, req).
Proof.
  intros Hres Hin. apply includes_elem_of in Hin.
  rewrite AuthGuard_run, Hres. simpl. rewrite Hin. reflexivity.
Qed.

Lemma credential_verdict_true (H : gmap string JsValue) :
  credential_verdict (JsObject H) = true
  <-> header H "api_key" = JsString "MY_API_KEY".
Proof.
  unfold credential_verdict, header.
  destruct (H !! "api_key") as [v|]; simpl.
  - destruct v; simpl; try (split; [discriminate | intros E; inversion E]).
    rewrite String.eqb_eq. split; intros E; [subst | inversion E]; reflexivity.
  - split; [discriminate | intros E; inversion E].
Qed.

Lemma BusinessGuard_run_mapping (this : BusinessGuard.t)
    (context : ExecutionContext) (H : gmap string JsValue) :
  BusinessGuard.canActivate this context (request_with H)
  = (Normal (business_verdict H), request_with H).
Proof.
  unfold_guard. unfold request_with, business_verdict.
  simpl. destruct (H !! "business_id") as [v|]; simpl; [|reflexivity].
  destruct v as [| |b|n|s|elems|props]; simpl; try reflexivity.
  - destruct b; reflexivity.
  - destruct (n =? 0)%Z eqn:En; simpl; rewrite ?En; reflexivity.
  - destruct (String.eqb s "") eqn:Es; simpl.
    + rewrite Es. apply String.eqb_eq in Es. subst. reflexivity.
    + destruct (String.eqb s "892367480"); reflexivity.
Qed.

Lemma business_verdict_true (H : gmap string JsValue) :
  business_verdict H = true <-> header H "business_id" = JsString "892367480".
Proof.
  unfold business_verdict, header.
  destruct (H !! "business_id") as [v|]; simpl.
  - destruct v; simpl; try (split; [discriminate | intros E; inversion E]).
    rewrite String.eqb_eq. split; intros E; [subst | inversion E]; reflexivity.
  - split; [discriminate | intros E; inversion E].
Qed.

(** Neither guard writes to the request. *)
Lemma AuthGuard_frame (this : AuthGuard.t) (context : ExecutionContext)
    (req : Request) :
  snd (AuthGuard.canActivate this context req) = req.
Proof. rewrite AuthGuard_run. reflexivity. Qed.

Lemma BusinessGuard_frame (this : BusinessGuard.t) (context : ExecutionContext)
    (req : Request) :
  snd (BusinessGuard.canActivate this context req) = req.
Proof.
  destruct req as [h].
  destruct h as [| |b|n|s|elems|H]; try reflexivity.
  change (mkRequest (JsObject H)) with (request_with H).
  rewrite BusinessGuard_run_mapping. reflexivity.
Qed.

Lemma Guard_frame (guard : Guard) (context : ExecutionContext) (req : Request) :
  snd (canActivate guard context req) = req.
Proof.
  destruct guard as [g|g]; [apply AuthGuard_frame | apply BusinessGuard_frame].
Qed.

Lemma credential_verdict_false (H : gmap string JsValue) :
  credential_verdict (JsObject H) = false
  <-> header H "api_key" <> JsString "MY_API_KEY".
Proof.
  rewrite <- credential_verdict_true.
  destruct (credential_verdict (JsObject H)); split; intros; congruence.
Qed.

Lemma business_verdict_false (H : gmap string JsValue) :
  business_verdict H = false <-> header H "business_id" <> JsString "892367480".
Proof.
  rewrite <- business_verdict_true.
  destruct (business_verdict H); split; intros; congruence.
Qed.

(** ** The metadata store *)

Lemma getMetadata_SetMetadata_same (store : MetadataStore) (key : string)
    (value : list string) (target : Target) :
  getMetadata (SetMetadata key value target store) key target = Some value.
Proof.
  unfold getMetadata, SetMetadata. rewrite lookup_insert_eq. simpl.
  apply lookup_insert_eq.
Qed.

Lemma getMetadata_SetMetadata_other (store : MetadataStore) (key key' : string)
    (value : list string) (target target' : Target) :
  target <> target' ->
  getMetadata (SetMetadata key value target store) key' target'
  = getMetadata store key' target'.
Proof.
  intros Hne. unfold getMetadata, SetMetadata.
  rewrite lookup_insert_ne by exact Hne. reflexivity.
Qed.

Lemma override_lookup_first (store : MetadataStore) (key : string)
    (target : Target) (others : list Target) (value : list string) :
  getMetadata store key target = Some value ->
  override_lookup store key (target :: others) = Some value.
Proof. intros E. simpl. rewrite E. reflexivity. Qed.

Lemma override_lookup_skip (store : MetadataStore) (key : string)
    (target : Target) (others : list Target) :
  getMetadata store key target = None ->
  override_lookup store key (target :: others) = override_lookup store key others.
Proof. intros E. simpl. rewrite E. reflexivity. Qed.

(** Decorating a handler and its group leaves each site with its own
    sequence. *)
Lemma AuthMetaData_both_sites (base : MetadataStore) (handler group : Target)
    (own inherited : list string) :
  handler <> group ->
  let store := AuthMetaData own handler (AuthMetaData inherited group base) in
  getMetadata store "authorized" handler = Some own
  /\ getMetadata store "authorized" group = Some inherited.
Proof.
  intros Hne store. unfold store, AuthMetaData. split.
  - apply getMetadata_SetMetadata_same.
  - rewrite getMetadata_SetMetadata_other by exact Hne.
    apply getMetadata_SetMetadata_same.
Qed.

(** ** Concrete cases of the walkthrough *)

Lemma app_test_no_bypass : no_bypass app_AuthGuard (context_of AppController_test).
Proof. intros tags E. vm_compute in E. discriminate. Defined.

(** * The credential guard *)

(** C1: when no bypass metadata applies, for every header mapping [H] the
    credential guard allows if [H['api_key']] is the secret ['MY_API_KEY']
    and denies for every other value, an absent key included; either way it
    returns normally. *)
Theorem AuthGuard_allows_exactly_the_secret (this : AuthGuard.t)
    (context : ExecutionContext) (H : gmap string JsValue) :
  no_bypass this context ->
  (header H "api_key" = JsString "MY_API_KEY" ->
   AuthGuard.canActivate this context (request_with H)
   = (Normal true, request_with H))
  /\ (header H "api_key" <> JsString "MY_API_KEY" ->
      AuthGuard.canActivate this context (request_with H)
      = (Normal false, request_with H))
  /\ (H !! "api_key" = None ->
      AuthGuard.canActivate this context (request_with H)
      = (Normal false, request_with H)).
Proof.
  intros Hno. rewrite (AuthGuard_run_no_bypass _ _ _ Hno).
  change (headers (request_with H)) with (JsObject H).
  split; [|split].
  - intros E. apply credential_verdict_true in E. rewrite E. reflexivity.
  - intros E. apply credential_verdict_false in E. rewrite E. reflexivity.
  - intros E. unfold credential_verdict. rewrite E. reflexivity.
Qed.

(** Scenarios 1 and 2 on the [test] route of the application: the secret is
    let through, ['MY_API'] and a request without the header are not. *)
Lemma AuthGuard_allows_exactly_the_secret_witness :
  fst (AuthGuard.canActivate app_AuthGuard (context_of AppController_test)
         (request_with {["api_key" := JsString "MY_API_KEY"]})) = Normal true
  /\ fst (AuthGuard.canActivate app_AuthGuard (context_of AppController_test)
            (request_with {["api_key" := JsString "MY_API"]})) = Normal false
  /\ fst (AuthGuard.canActivate app_AuthGuard (context_of AppController_test)
            (request_with ∅)) = Normal false.
Proof.
  split; [|split].
  - destruct (AuthGuard_allows_exactly_the_secret app_AuthGuard
                (context_of AppController_test)
                {["api_key" := JsString "MY_API_KEY"]} app_test_no_bypass)
      as [Hallow _].
    rewrite Hallow; reflexivity.
  - destruct (AuthGuard_allows_exactly_the_secret app_AuthGuard
                (context_of AppController_test)
                {["api_key" := JsString "MY_API"]} app_test_no_bypass)
      as (_ & Hdeny & _).
    rewrite Hdeny; [reflexivity|]. vm_compute. discriminate.
  - destruct (AuthGuard_allows_exactly_the_secret app_AuthGuard
                (context_of AppController_test) ∅ app_test_no_bypass)
      as (_ & _ & Habsent).
    rewrite Habsent; reflexivity.
Defined.

(** C2: whenever the metadata sequence resolved for ['authorized'] contains
    ['SkipAuthorizationCheck'], the credential guard allows, whatever the
    request holds: any headers value, a mapping without ['api_key'], no
    mapping at all. *)
Theorem AuthGuard_bypass_dominates (this : AuthGuard.t)
    (context : ExecutionContext) (req : Request) (tags : list string) :
  resolved_metadata this context = Some tags ->
  "SkipAuthorizationCheck" ∈ tags ->
  AuthGuard.canActivate this context req = (Normal true, req).
Proof. apply AuthGuard_run_bypass. Qed.

(** Scenario 5: the [public] route carries the tag, the request has no
    ['api_key'] header, and the guard allows. *)
Lemma AuthGuard_bypass_dominates_witness :
  AuthGuard.canActivate app_AuthGuard (context_of AppController_getPublic)
    (request_with ∅)
  = (Normal true, request_with ∅).
Proof.
  apply (AuthGuard_bypass_dominates app_AuthGuard
           (context_of AppController_getPublic) (request_with ∅)
           ["SkipAuthorizationCheck"]).
  - vm_compute. reflexivity.
  - apply list_elem_of_here.
Defined.

(** C6: when ['authorized'] is undefined at the handler and at the group,
    the credential guard does exactly what it does on an empty sequence: it
    returns normally, and on a header mapping it allows if and only if
    ['api_key'] is the secret. *)
Theorem AuthGuard_undefined_metadata_is_empty (store : MetadataStore)
    (on_empty : AuthGuard.t) (context : ExecutionContext) (req : Request) :
  getMetadata store "authorized" (getHandler context) = None ->
  getMetadata store "authorized" (getClass context) = None ->
  resolved_metadata on_empty context = Some [] ->
  let this := AuthGuard.new (store_reflector store) in
  AuthGuard.canActivate this context req
  = AuthGuard.canActivate on_empty context req
  /\ (exists answer : bool,
        AuthGuard.canActivate this context req = (Normal answer, req))
  /\ (forall H : gmap string JsValue,
        headers req = JsObject H ->
        (AuthGuard.canActivate this context req = (Normal true, req)
         <-> header H "api_key" = JsString "MY_API_KEY")).
Proof.
  intros Hh Hc Hempty this.
  assert (Hnone : resolved_metadata this context = None).
  { unfold resolved_metadata, this. simpl. rewrite Hh, Hc. reflexivity. }
  assert (Hrun : AuthGuard.canActivate this context req
                 = (Normal (credential_verdict (headers req)), req)).
  { rewrite AuthGuard_run, Hnone. reflexivity. }
  split; [|split].
  - rewrite Hrun, AuthGuard_run, Hempty. reflexivity.
  - eexists. exact Hrun.
  - intros H EH. rewrite Hrun, EH. split; intros E.
    + apply credential_verdict_true. inversion E. reflexivity.
    + apply credential_verdict_true in E. rewrite E. reflexivity.
Qed.

(** The [test] route of the application defines no metadata, neither does
    the controller: the guard answers as with [@AuthMetaData()] on the
    route. *)
Lemma AuthGuard_undefined_metadata_is_empty_witness :
  AuthGuard.canActivate app_AuthGuard (context_of AppController_test)
    (request_with {["api_key" := JsString "MY_API_KEY"]})
  = AuthGuard.canActivate
      (AuthGuard.new (store_reflector (AuthMetaData [] AppController_test app_metadata)))
      (context_of AppController_test)
      (request_with {["api_key" := JsString "MY_API_KEY"]}).
Proof.
  refine (proj1 (AuthGuard_undefined_metadata_is_empty app_metadata
                   (AuthGuard.new (store_reflector
                      (AuthMetaData [] AppController_test app_metadata)))
                   (context_of AppController_test)
                   (request_with {["api_key" := JsString "MY_API_KEY"]}) _ _ _));
    vm_compute; reflexivity.
Defined.

(** C9: when the request has no header mapping at all ([undefined] or
    [null]) and no bypass metadata applies, the credential guard returns
    deny, normally: the truthiness test on [headers] keeps the property read
    from being reached. *)
Theorem AuthGuard_denies_without_headers (this : AuthGuard.t)
    (context : ExecutionContext) (req : Request) :
  no_bypass this context ->
  headers req = JsUndefined \/ headers req = JsNull ->
  AuthGuard.canActivate this context req = (Normal false, req).
Proof.
  intros Hno Habsent. rewrite (AuthGuard_run_no_bypass _ _ _ Hno).
  destruct Habsent as [-> | ->]; reflexivity.
Qed.

Lemma AuthGuard_denies_without_headers_witness :
  AuthGuard.canActivate app_AuthGuard (context_of AppController_test)
    (mkRequest JsUndefined) = (Normal false, mkRequest JsUndefined)
  /\ AuthGuard.canActivate app_AuthGuard (context_of AppController_test)
       (mkRequest JsNull) = (Normal false, mkRequest JsNull).
Proof.
  split.
  - apply (AuthGuard_denies_without_headers app_AuthGuard
             (context_of AppController_test) (mkRequest JsUndefined)
             app_test_no_bypass).
    left. reflexivity.
  - apply (AuthGuard_denies_without_headers app_AuthGuard
             (context_of AppController_test) (mkRequest JsNull)
             app_test_no_bypass).
    right. reflexivity.
Defined.

(** * The business guard *)

(** C4: for every header mapping [H] the business guard allows if and only
    if [H['business_id']] is the string ['892367480']; a missing key, any
    other value, and the number 892367480 are denied; and the answer is the
    same for every handler and class, so no metadata attached to them is
    consulted. *)
Theorem BusinessGuard_allows_exactly_the_id (this : BusinessGuard.t)
    (context : ExecutionContext) (H : gmap string JsValue) :
  (BusinessGuard.canActivate this context (request_with H)
   = (Normal true, request_with H)
   <-> header H "business_id" = JsString "892367480")
  /\ (header H "business_id" <> JsString "892367480" ->
      BusinessGuard.canActivate this context (request_with H)
      = (Normal false, request_with H))
  /\ (H !! "business_id" = None ->
      BusinessGuard.canActivate this context (request_with H)
      = (Normal false, request_with H))
  /\ (H !! "business_id" = Some (JsNumber 892367480) ->
      BusinessGuard.canActivate this context (request_with H)
      = (Normal false, request_with H))
  /\ (forall anywhere : ExecutionContext,
        BusinessGuard.canActivate this anywhere (request_with H)
        = BusinessGuard.canActivate this context (request_with H)).
Proof.
  rewrite BusinessGuard_run_mapping.
  split; [|split; [|split; [|split]]].
  - split; intros E.
    + apply business_verdict_true. inversion E. reflexivity.
    + apply business_verdict_true in E. rewrite E. reflexivity.
  - intros E. apply business_verdict_false in E. rewrite E. reflexivity.
  - intros E. unfold business_verdict. rewrite E. reflexivity.
  - intros E. unfold business_verdict. rewrite E. reflexivity.
  - intros anywhere. apply BusinessGuard_run_mapping.
Qed.

(** C10: the business guard leaves the request as it found it, for every
    context and every request, also when it throws. *)
Theorem BusinessGuard_leaves_request_unchanged (this : BusinessGuard.t)
    (context : ExecutionContext) (req : Request) :
  snd (BusinessGuard.canActivate this context req) = req.
Proof. apply BusinessGuard_frame. Qed.

(** * Verdicts are ordinary values *)

Lemma BusinessGuard_returns_with_headers (this : BusinessGuard.t)
    (context : ExecutionContext) (req : Request) :
  headers req <> JsUndefined -> headers req <> JsNull ->
  exists answer : bool,
    BusinessGuard.canActivate this context req = (Normal answer, req).
Proof.
  destruct req as [h]. simpl. intros Hu Hn.
  destruct h as [| |b|n|s|elems|H]; try contradiction;
    try (exists false; reflexivity).
  exists (business_verdict H). apply BusinessGuard_run_mapping.
Qed.


(** Nor does the credential guard return when the context hands out no
    request: it reads [headers] of [undefined] before any other test. *)
Example AuthGuard_throws_without_request :
  AuthGuard_on_context app_AuthGuard (context_of AppController_getPublic)
    HandedUndefined
  = (Throw (TypeError "Cannot read properties of undefined (reading 'headers')"),
     HandedUndefined).
Proof. reflexivity. Qed.

Lemma BusinessGuard_throws_on_nullish_headers (this : BusinessGuard.t)
    (context : ExecutionContext) (req : Request) :
  headers req = JsUndefined \/ headers req = JsNull ->
  exists e : JsError,
    BusinessGuard.canActivate this context req = (Throw e, req).
Proof.
  destruct req as [h]. simpl. intros [-> | ->]; eexists; reflexivity.
Qed.



(** * Purity *)

Lemma request_after_all_same (siblings : list Guard)
    (context : ExecutionContext) (req : Request) :
  request_after_all siblings context req = req.
Proof.
  revert req. induction siblings as [|guard others IH]; intros req; simpl.
  - reflexivity.
  - rewrite Guard_frame. apply IH.
Qed.

Lemma BusinessGuard_run_headers (this1 this2 : BusinessGuard.t)
    (context1 context2 : ExecutionContext) (req1 req2 : Request) :
  headers req1 = headers req2 ->
  fst (BusinessGuard.canActivate this1 context1 req1)
  = fst (BusinessGuard.canActivate this2 context2 req2).
Proof.
  destruct req1 as [h1], req2 as [h2]. simpl. intros <-.
  destruct h1; reflexivity.
Qed.

(** C8: a guard's verdict is a function of the headers and, for the
    credential guard, of the resolved metadata, and of nothing else: equal
    headers and equal resolved metadata give equal verdicts, whichever guard
    instance and context they come from; and evaluating any sequence of
    sibling guards beforehand, in any order, changes nothing of what a guard
    then returns. *)
Theorem guard_verdict_is_pure :
  (forall (this1 this2 : AuthGuard.t) (context1 context2 : ExecutionContext)
          (req1 req2 : Request),
      headers req1 = headers req2 ->
      resolved_metadata this1 context1 = resolved_metadata this2 context2 ->
      fst (AuthGuard.canActivate this1 context1 req1)
      = fst (AuthGuard.canActivate this2 context2 req2))
  /\ (forall (this1 this2 : BusinessGuard.t) (context1 context2 : ExecutionContext)
             (req1 req2 : Request),
        headers req1 = headers req2 ->
        fst (BusinessGuard.canActivate this1 context1 req1)
        = fst (BusinessGuard.canActivate this2 context2 req2))
  /\ (forall (guard : Guard) (siblings : list Guard)
             (context : ExecutionContext) (req : Request),
        canActivate guard context (request_after_all siblings context req)
        = canActivate guard context req).
Proof.
  split; [|split].
  - intros this1 this2 context1 context2 req1 req2 Hh Hm.
    rewrite !AuthGuard_run, Hh, Hm. reflexivity.
  - apply BusinessGuard_run_headers.
  - intros guard siblings context req.
    rewrite request_after_all_same. reflexivity.
Qed.

(** Two routes of the application, two requests with the same headers: the
    [test] route and the [getHello] route resolve to the same (undefined)
    metadata, so the credential guard answers the same. *)
Lemma guard_verdict_is_pure_witness :
  fst (AuthGuard.canActivate app_AuthGuard (context_of AppController_test)
         (request_with {["api_key" := JsString "MY_API_KEY"]}))
  = fst (AuthGuard.canActivate (AuthGuard.new (store_reflector ∅))
           (context_of AppController_getHello)
           (request_with {["api_key" := JsString "MY_API_KEY"]})).
Proof.
  apply (proj1 guard_verdict_is_pure); vm_compute; reflexivity.
Defined.

(** * Metadata resolution *)

(** C5: when the handler and its group both define a sequence for
    ['authorized'], the lookup the credential guard uses resolves to the
    handler's sequence, whole; so a handler whose own sequence lacks the
    bypass tag gets no bypass from a group that has it, and a request with a
    wrong ['api_key'] is denied. *)
Theorem handler_metadata_overrides_group (store : MetadataStore)
    (handler group : Target) (own inherited : list string) :
  getMetadata store "authorized" handler = Some own ->
  getMetadata store "authorized" group = Some inherited ->
  getAllAndOverride (store_reflector store) "authorized" [handler; group]
  = Some own
  /\ ("SkipAuthorizationCheck" ∉ own ->
      "SkipAuthorizationCheck" ∈ inherited ->
      forall H : gmap string JsValue,
        header H "api_key" <> JsString "MY_API_KEY" ->
        AuthGuard.canActivate (AuthGuard.new (store_reflector store))
          (mkContext handler group) (request_with H)
        = (Normal false, request_with H)).
Proof.
  intros Hown Hgroup.
  assert (Hres : override_lookup store "authorized" [handler; group] = Some own)
    by (apply override_lookup_first; exact Hown).
  split; [exact Hres|].
  intros Hnot _ H Hkey.
  rewrite AuthGuard_run_no_bypass.
  - change (headers (request_with H)) with (JsObject H).
    apply credential_verdict_false in Hkey. rewrite Hkey. reflexivity.
  - intros tags E. unfold resolved_metadata in E. simpl in E.
    rewrite Hown in E. inversion E; subst. exact Hnot.
Qed.

(** [@AuthMetaData('SkipAuthorizationCheck')] on the controller and
    [@AuthMetaData('audited')] on [test]: the route resolves to its own
    sequence and a request with a wrong key is denied. *)
Lemma handler_metadata_overrides_group_witness :
  let store := AuthMetaData ["audited"] AppController_test
                 (AuthMetaData ["SkipAuthorizationCheck"] AppController ∅) in
  getAllAndOverride (store_reflector store) "authorized"
    [AppController_test; AppController] = Some ["audited"]
  /\ AuthGuard.canActivate (AuthGuard.new (store_reflector store))
       (mkContext AppController_test AppController)
       (request_with {["api_key" := JsString "MY_API"]})
     = (Normal false, request_with {["api_key" := JsString "MY_API"]}).
Proof.
  intros store.
  destruct (AuthMetaData_both_sites ∅ AppController_test AppController
              ["audited"] ["SkipAuthorizationCheck"]) as [Hown Hgroup];
    [discriminate|].
  destruct (handler_metadata_overrides_group store AppController_test
              AppController ["audited"] ["SkipAuthorizationCheck"] Hown Hgroup)
    as [Hres Hdeny].
  split; [exact Hres|].
  apply Hdeny.
  - intros Hin. apply list_elem_of_singleton in Hin. discriminate.
  - apply list_elem_of_here.
  - vm_compute. discriminate.
Defined.

(** * Composition *)

Lemma canActivate_answer (guard : Guard) (context : ExecutionContext)
    (req : Request) :
  canActivate guard context req = (fst (canActivate guard context req), req).
Proof.
  rewrite <- (Guard_frame guard context req) at 3.
  apply surjective_pairing.
Qed.

Lemma tryActivate_deny_first (guard : Guard) (others : list Guard)
    (context : ExecutionContext) (req : Request) :
  fst (canActivate guard context req) = Normal false ->
  tryActivate (guard :: others) context req
  = mkActivation [guard] (Normal false) req.
Proof.
  intros Hdeny. simpl. rewrite canActivate_answer, Hdeny. reflexivity.
Qed.

Lemma tryActivate_allow_first (guard : Guard) (others : list Guard)
    (context : ExecutionContext) (req : Request) :
  fst (canActivate guard context req) = Normal true ->
  tryActivate (guard :: others) context req
  = mkActivation (guard :: invoked (tryActivate others context req))
      (verdict (tryActivate others context req))
      (request_after (tryActivate others context req)).
Proof.
  intros Hallow. simpl. rewrite canActivate_answer, Hallow. reflexivity.
Qed.

Lemma tryActivate_throw_first (guard : Guard) (others : list Guard)
    (context : ExecutionContext) (req : Request) (e : JsError) :
  fst (canActivate guard context req) = Throw e ->
  tryActivate (guard :: others) context req = mkActivation [guard] (Throw e) req.
Proof.
  intros Hthrow. simpl. rewrite canActivate_answer, Hthrow. reflexivity.
Qed.

(** C3: on a handler bound to [AuthGuard, BusinessGuard] the verdict is
    the ordered AND with short-circuit.  When the credential guard denies,
    the pass ends with deny and it is the only guard invoked, whatever
    guards follow it; when it allows and the business guard denies, both
    were invoked and the verdict is deny, as with the secret ['api_key'] and
    no ['business_id']; and the verdict is allow exactly when both allow. *)
Theorem AuthGuard_then_BusinessGuard (reflector : Reflector)
    (context : ExecutionContext) (req : Request) :
  let auth := UseAuthGuard (AuthGuard.new reflector) in
  let business := UseBusinessGuard BusinessGuard.new in
  let pass := tryActivate (AppController_test_guards reflector) context req in
  (fst (canActivate auth context req) = Normal false ->
   pass = mkActivation [auth] (Normal false) req
   /\ forall others : list Guard,
        tryActivate (auth :: others) context req
        = mkActivation [auth] (Normal false) req)
  /\ (fst (canActivate auth context req) = Normal true ->
      fst (canActivate business context req) = Normal false ->
      pass = mkActivation [auth; business] (Normal false) req)
  /\ (verdict pass = Normal true
      <-> fst (canActivate auth context req) = Normal true
          /\ fst (canActivate business context req) = Normal true)
  /\ (forall H : gmap string JsValue,
        req = request_with H ->
        header H "api_key" = JsString "MY_API_KEY" ->
        H !! "business_id" = None ->
        pass = mkActivation [auth; business] (Normal false) req).
Proof.
  intros auth business pass.
  assert (Epass : pass = tryActivate [auth; business] context req) by reflexivity.
  clearbody pass. subst pass.
  set (pass := tryActivate [auth; business] context req).
  assert (Hsecond : fst (canActivate auth context req) = Normal true ->
                    pass = mkActivation
                             (auth :: invoked (tryActivate [business] context req))
                             (verdict (tryActivate [business] context req))
                             (request_after (tryActivate [business] context req))).
  { intros Hallow. unfold pass.
    apply (tryActivate_allow_first auth [business]). exact Hallow. }
  split; [|split; [|split]].
  - intros Hdeny. split.
    + apply (tryActivate_deny_first auth [business]). exact Hdeny.
    + intros others. apply tryActivate_deny_first. exact Hdeny.
  - intros Hallow Hdeny. rewrite (Hsecond Hallow).
    rewrite (tryActivate_deny_first business [] context req Hdeny). reflexivity.
  - split.
    + intros Hpass.
      destruct (fst (canActivate auth context req)) as [[|]|e] eqn:Ea.
      * split; [reflexivity|].
        rewrite (Hsecond eq_refl) in Hpass. simpl in Hpass.
        rewrite (canActivate_answer business) in Hpass.
        destruct (fst (canActivate business context req)) as [[|]|e'];
          simpl in Hpass; [reflexivity | discriminate | discriminate].
      * unfold pass in Hpass.
        rewrite (tryActivate_deny_first auth [business] context req Ea) in Hpass.
        discriminate.
      * unfold pass in Hpass.
        rewrite (tryActivate_throw_first auth [business] context req e Ea) in Hpass.
        discriminate.
    + intros [Ha Hb]. rewrite (Hsecond Ha).
      rewrite (tryActivate_allow_first business [] context req Hb). reflexivity.
  - intros H -> Hkey Hid.
    assert (Ha : fst (canActivate auth context (request_with H)) = Normal true).
    { unfold auth, canActivate, Guard_CanActivate, AuthGuard_CanActivate.
      rewrite AuthGuard_run.
      change (headers (request_with H)) with (JsObject H).
      apply credential_verdict_true in Hkey. rewrite Hkey, orb_true_r.
      reflexivity. }
    assert (Hb : fst (canActivate business context (request_with H)) = Normal false).
    { unfold business, canActivate, Guard_CanActivate, BusinessGuard_CanActivate.
      rewrite BusinessGuard_run_mapping. unfold business_verdict.
      rewrite Hid. reflexivity. }
    rewrite (Hsecond Ha).
    rewrite (tryActivate_deny_first business [] context (request_with H) Hb).
    reflexivity.
Qed.

(** Scenarios 3 and 4 on the [test] route: with the secret only, the
    credential guard allows, the business guard denies and the verdict is
    deny; with a wrong key the business guard is not invoked. *)
Lemma AuthGuard_then_BusinessGuard_witness :
  let reflector := store_reflector ∅ in
  let auth := UseAuthGuard (AuthGuard.new reflector) in
  let business := UseBusinessGuard BusinessGuard.new in
  tryActivate (AppController_test_guards reflector) (context_of AppController_test)
    (request_with {["api_key" := JsString "MY_API_KEY"]})
  = mkActivation [auth; business] (Normal false)
      (request_with {["api_key" := JsString "MY_API_KEY"]})
  /\ tryActivate (AppController_test_guards reflector) (context_of AppController_test)
       (request_with {["api_key" := JsString "MY_API"]})
     = mkActivation [auth] (Normal false)
         (request_with {["api_key" := JsString "MY_API"]}).
Proof.
  intros reflector auth business. split.
  - apply (proj2 (proj2 (proj2
             (AuthGuard_then_BusinessGuard reflector
                (context_of AppController_test)
                (request_with {["api_key" := JsString "MY_API_KEY"]}))))
             {["api_key" := JsString "MY_API_KEY"]});
      vm_compute; reflexivity.
  - apply (proj1
             (AuthGuard_then_BusinessGuard reflector
                (context_of AppController_test)
                (request_with {["api_key" := JsString "MY_API"]}))).
    vm_compute. reflexivity.
Defined.

(** Scenario 4: both headers right, both guards allow, the handler runs. *)
Example test_route_allows_with_both_headers :
  verdict (tryActivate (AppController_test_guards (store_reflector ∅))
             (context_of AppController_test)
             (request_with {["api_key" := JsString "MY_API_KEY";
                             "business_id" := JsString "892367480"]}))
  = Normal true.
Proof. vm_compute. reflexivity. Qed.

(** * Further properties of the guards *)

Lemma credential_verdict_allows (h : JsValue) :
  credential_verdict h = true
  <-> exists H : gmap string JsValue,
        h = JsObject H /\ header H "api_key" = JsString "MY_API_KEY".
Proof.
  split.
  - intros E. destruct h as [| |b|n|s|elems|H]; try discriminate.
    exists H. split; [reflexivity|]. apply credential_verdict_true. exact E.
  - intros (H & -> & E). apply credential_verdict_true. exact E.
Qed.

Lemma bypass_truthy (resolved : option (list string)) :
  to_boolean (optional_includes resolved bypass_tag) = true
  <-> exists tags : list string, resolved = Some tags /\ bypass_tag ∈ tags.
Proof.
  destruct resolved as [tags|]; simpl.
  - rewrite includes_elem_of. split.
    + intros Hin. exists tags. split; [reflexivity | exact Hin].
    + intros (tags' & E & Hin). inversion E; subst. exact Hin.
  - split; [discriminate | intros (tags & E & _); discriminate].
Qed.

Lemma AuthGuardStep2_run (this : AuthGuardStep2.t) (context : ExecutionContext)
    (req : Request) :
  AuthGuardStep2.canActivate this context req
  = (Normal (credential_verdict (headers req)), req).
Proof.
  unfold AuthGuardStep2.canActivate. unfold_guard.
  destruct req as [h]; simpl.
  destruct h as [| |b|n|s|elems|H]; simpl; try reflexivity.
  - destruct b; reflexivity.
  - destruct (n =? 0)%Z eqn:En; simpl; rewrite ?En; reflexivity.
  - destruct (String.eqb s "") eqn:Es; simpl; rewrite ?Es; reflexivity.
  - destruct (H !! "api_key") as [v|]; simpl; [|reflexivity].
    destruct v; simpl; try reflexivity.
    destruct (String.eqb s "MY_API_KEY"); reflexivity.
Qed.

(** X1: for every context and every request, whatever its [headers] holds,
    the credential guard allows if and only if the resolved metadata
    contains the bypass tag or [headers] is a mapping whose ['api_key'] is
    the string ['MY_API_KEY']. *)
Theorem AuthGuard_allows_iff (this : AuthGuard.t) (context : ExecutionContext)
    (req : Request) :
  AuthGuard.canActivate this context req = (Normal true, req)
  <-> (exists tags : list string,
         resolved_metadata this context = Some tags
         /\ "SkipAuthorizationCheck" ∈ tags)
      \/ (exists H : gmap string JsValue,
            headers req = JsObject H
            /\ header H "api_key" = JsString "MY_API_KEY").
Proof.
  rewrite AuthGuard_run.
  rewrite <- (bypass_truthy (resolved_metadata this context)).
  rewrite <- (credential_verdict_allows (headers req)).
  rewrite <- orb_true_iff.
  split; [intros E; inversion E; reflexivity | intros ->; reflexivity].
Qed.

(** X2: the credential guard reads no header but ['api_key']: setting or
    removing any other header of the mapping leaves its verdict as it was.
    The name ['__proto__'] is set apart: assigning to it names no header,
    it installs a prototype. *)
Theorem AuthGuard_ignores_other_headers (this : AuthGuard.t)
    (context : ExecutionContext) (H : gmap string JsValue)
    (name : string) (value : JsValue) :
  name <> "api_key" ->
  name <> "__proto__" ->
  fst (AuthGuard.canActivate this context (request_with (<[name := value]> H)))
  = fst (AuthGuard.canActivate this context (request_with H))
  /\ fst (AuthGuard.canActivate this context (request_with (delete name H)))
     = fst (AuthGuard.canActivate this context (request_with H)).
Proof.
  intros Hne _. rewrite !AuthGuard_run. unfold request_with. simpl.
  rewrite lookup_insert_ne by exact Hne.
  rewrite lookup_delete_ne by exact Hne.
  split; reflexivity.
Qed.

Lemma AuthGuard_ignores_other_headers_witness :
  fst (AuthGuard.canActivate app_AuthGuard (context_of AppController_test)
         (request_with (<["business_id" := JsString "892367480"]> ∅)))
  = fst (AuthGuard.canActivate app_AuthGuard (context_of AppController_test)
           (request_with ∅)).
Proof.
  apply (proj1 (AuthGuard_ignores_other_headers app_AuthGuard
                  (context_of AppController_test) ∅ "business_id"
                  (JsString "892367480") ltac:(discriminate)
                  ltac:(discriminate))).
Defined.

(** X3: the business guard reads no header but ['business_id']: setting or
    removing any other header leaves its result as it was; the
    ['api_key'] in particular plays no part in it.  The name ['__proto__']
    is set apart: assigning to it names no header, it installs a
    prototype. *)
Theorem BusinessGuard_ignores_other_headers (this : BusinessGuard.t)
    (context : ExecutionContext) (H : gmap string JsValue)
    (name : string) (value : JsValue) :
  name <> "business_id" ->
  name <> "__proto__" ->
  fst (BusinessGuard.canActivate this context (request_with (<[name := value]> H)))
  = fst (BusinessGuard.canActivate this context (request_with H))
  /\ fst (BusinessGuard.canActivate this context (request_with (delete name H)))
     = fst (BusinessGuard.canActivate this context (request_with H)).
Proof.
  intros Hne _. rewrite !BusinessGuard_run_mapping. unfold business_verdict. simpl.
  rewrite lookup_insert_ne by exact Hne.
  rewrite lookup_delete_ne by exact Hne.
  split; reflexivity.
Qed.

Lemma BusinessGuard_ignores_other_headers_witness :
  fst (BusinessGuard.canActivate BusinessGuard.new (context_of AppController_test)
         (request_with (<["api_key" := JsString "MY_API_KEY"]> ∅)))
  = fst (BusinessGuard.canActivate BusinessGuard.new (context_of AppController_test)
           (request_with ∅)).
Proof.
  apply (proj1 (BusinessGuard_ignores_other_headers BusinessGuard.new
                  (context_of AppController_test) ∅ "api_key"
                  (JsString "MY_API_KEY") ltac:(discriminate)
                  ltac:(discriminate))).
Defined.

(** X4: the three ways the business guard ends.  It throws exactly when
    [headers] is [undefined] or [null]; it allows exactly when [headers] is a
    mapping whose ['business_id'] is the string ['892367480']; for every
    other request, a [headers] that is no mapping included, it denies. *)
Theorem BusinessGuard_outcomes (this : BusinessGuard.t)
    (context : ExecutionContext) (req : Request) :
  ((exists e : JsError,
       fst (BusinessGuard.canActivate this context req) = Throw e)
   <-> headers req = JsUndefined \/ headers req = JsNull)
  /\ (fst (BusinessGuard.canActivate this context req) = Normal true
      <-> exists H : gmap string JsValue,
            headers req = JsObject H
            /\ header H "business_id" = JsString "892367480")
  /\ (fst (BusinessGuard.canActivate this context req) = Normal false
      <-> headers req <> JsUndefined /\ headers req <> JsNull
          /\ forall H : gmap string JsValue,
               headers req = JsObject H ->
               header H "business_id" <> JsString "892367480").
Proof.
  destruct req as [h]. simpl.
  destruct h as [| |b|n|s|elems|H];
    try (change (mkRequest (JsObject H)) with (request_with H);
         rewrite BusinessGuard_run_mapping);
    simpl; (split; [|split]); split;
    try discriminate;
    try (intros [e E]; discriminate);
    try (intros [E | E]; discriminate);
    try (intros (H' & E & _); discriminate);
    try (intros (Hu & Hn & _); congruence);
    try (intros _; eauto; fail);
    try (intros _; repeat split; try discriminate; intros H' E; discriminate).
  - intros E. exists H. split; [reflexivity|].
    apply business_verdict_true. inversion E. reflexivity.
  - intros (H' & E & Hid). inversion E; subst.
    apply business_verdict_true in Hid. rewrite Hid. reflexivity.
  - intros E. repeat split; try discriminate.
    intros H' EH. inversion EH; subst.
    apply business_verdict_false. inversion E. reflexivity.
  - intros (_ & _ & Hid). specialize (Hid H eq_refl).
    apply business_verdict_false in Hid. rewrite Hid. reflexivity.
Qed.

(** * The two versions of the credential guard *)

(** X5: the metadata check only adds access.  Where no bypass applies the
    guard answers exactly as the guard of step 2 did, and whatever request
    the guard of step 2 let through, the guard lets through, on every
    route. *)
Theorem AuthGuard_extends_step2 (this : AuthGuard.t) (old : AuthGuardStep2.t)
    (context : ExecutionContext) (req : Request) :
  (no_bypass this context ->
   AuthGuard.canActivate this context req
   = AuthGuardStep2.canActivate old context req)
  /\ (AuthGuardStep2.canActivate old context req = (Normal true, req) ->
      AuthGuard.canActivate this context req = (Normal true, req)).
Proof.
  rewrite AuthGuardStep2_run. split.
  - intros Hno. apply AuthGuard_run_no_bypass. exact Hno.
  - intros E. rewrite AuthGuard_run. inversion E as [Hc]. rewrite Hc.
    rewrite orb_true_r. reflexivity.
Qed.

Lemma AuthGuard_extends_step2_witness :
  AuthGuard.canActivate app_AuthGuard (context_of AppController_test)
    (request_with {["api_key" := JsString "MY_API_KEY"]})
  = AuthGuardStep2.canActivate AuthGuardStep2.new (context_of AppController_test)
      (request_with {["api_key" := JsString "MY_API_KEY"]})
  /\ AuthGuard.canActivate app_AuthGuard (context_of AppController_getPublic)
       (request_with {["api_key" := JsString "MY_API_KEY"]})
     = (Normal true, request_with {["api_key" := JsString "MY_API_KEY"]}).
Proof.
  split.
  - apply (proj1 (AuthGuard_extends_step2 app_AuthGuard AuthGuardStep2.new
                    (context_of AppController_test)
                    (request_with {["api_key" := JsString "MY_API_KEY"]}))).
    exact app_test_no_bypass.
  - apply (proj2 (AuthGuard_extends_step2 app_AuthGuard AuthGuardStep2.new
                    (context_of AppController_getPublic)
                    (request_with {["api_key" := JsString "MY_API_KEY"]}))).
    vm_compute. reflexivity.
Defined.

(** * From the decorator to the guard *)

Lemma resolved_metadata_store (store : MetadataStore)
    (context : ExecutionContext) :
  resolved_metadata (AuthGuard.new (store_reflector store)) context
  = override_lookup store "authorized" [getHandler context; getClass context].
Proof. reflexivity. Qed.

(** X6: a handler that defines nothing under ['authorized'] falls back on
    its group: when the group's sequence contains the bypass tag, the
    credential guard allows every request to that handler. *)
Theorem group_bypass_reaches_plain_handler (store : MetadataStore)
    (context : ExecutionContext) (req : Request) (tags : list string) :
  getMetadata store "authorized" (getHandler context) = None ->
  getMetadata store "authorized" (getClass context) = Some tags ->
  "SkipAuthorizationCheck" ∈ tags ->
  AuthGuard.canActivate (AuthGuard.new (store_reflector store)) context req
  = (Normal true, req).
Proof.
  intros Hh Hg Hin. apply (AuthGuard_run_bypass _ _ _ tags); [|exact Hin].
  rewrite resolved_metadata_store, override_lookup_skip by exact Hh.
  apply override_lookup_first. exact Hg.
Qed.

(** [@AuthMetaData('SkipAuthorizationCheck')] on the controller class opens
    its [test] route to a request without headers. *)
Lemma group_bypass_reaches_plain_handler_witness :
  AuthGuard.canActivate
    (AuthGuard.new (store_reflector
       (AuthMetaData ["SkipAuthorizationCheck"] AppController ∅)))
    (context_of AppController_test) (request_with ∅)
  = (Normal true, request_with ∅).
Proof.
  apply (group_bypass_reaches_plain_handler
           (AuthMetaData ["SkipAuthorizationCheck"] AppController ∅)
           (context_of AppController_test) (request_with ∅)
           ["SkipAuthorizationCheck"]).
  - vm_compute. reflexivity.
  - vm_compute. reflexivity.
  - apply list_elem_of_here.
Defined.

(** X7: [@AuthMetaData(...tags)] on a handler, with the bypass tag anywhere
    among the tags, opens that handler: the credential guard allows every
    request to it, whatever the group and whatever was attached before. *)
Theorem AuthMetaData_tag_opens_handler (base : MetadataStore)
    (tags : list string) (handler group : Target) (req : Request) :
  "SkipAuthorizationCheck" ∈ tags ->
  AuthGuard.canActivate
    (AuthGuard.new (store_reflector (AuthMetaData tags handler base)))
    (mkContext handler group) req
  = (Normal true, req).
Proof.
  intros Hin. apply (AuthGuard_run_bypass _ _ _ tags); [|exact Hin].
  rewrite resolved_metadata_store. apply override_lookup_first.
  apply getMetadata_SetMetadata_same.
Qed.

Lemma AuthMetaData_tag_opens_handler_witness :
  AuthGuard.canActivate
    (AuthGuard.new (store_reflector
       (AuthMetaData ["audited"; "SkipAuthorizationCheck"] AppController_test ∅)))
    (mkContext AppController_test AppController) (mkRequest JsUndefined)
  = (Normal true, mkRequest JsUndefined).
Proof.
  apply (AuthMetaData_tag_opens_handler ∅ ["audited"; "SkipAuthorizationCheck"]
           AppController_test AppController (mkRequest JsUndefined)).
  apply list_elem_of_further, list_elem_of_here.
Defined.

(** * The passes of the application *)

Lemma canActivate_UseAuthGuard (g : AuthGuard.t) (context : ExecutionContext)
    (req : Request) :
  canActivate (UseAuthGuard g) context req
  = (Normal
       (to_boolean (optional_includes (resolved_metadata g context) bypass_tag)
        || credential_verdict (headers req)),
     req).
Proof. apply AuthGuard_run. Qed.

Lemma canActivate_UseBusinessGuard_mapping (g : BusinessGuard.t)
    (context : ExecutionContext) (H : gmap string JsValue) :
  canActivate (UseBusinessGuard g) context (request_with H)
  = (Normal (business_verdict H), request_with H).
Proof. apply BusinessGuard_run_mapping. Qed.

Lemma tryActivate_pair (first second : Guard) (context : ExecutionContext)
    (req : Request) (a b : bool) :
  canActivate first context req = (Normal a, req) ->
  canActivate second context req = (Normal b, req) ->
  verdict (tryActivate [first; second] context req) = Normal (a && b).
Proof.
  intros Ea Eb. simpl. rewrite Ea. destruct a; simpl; [|reflexivity].
  rewrite Eb. destruct b; reflexivity.
Qed.

(** X10: on the route bound to [AuthGuard, BusinessGuard], when no bypass
    applies, the pass never throws, whatever the request: a request without
    a header mapping is denied by the credential guard before the business
    guard, which would throw on it, is reached. *)
Theorem test_route_pass_never_throws (reflector : Reflector)
    (context : ExecutionContext) (req : Request) :
  no_bypass (AuthGuard.new reflector) context ->
  exists answer : bool,
    verdict (tryActivate (AppController_test_guards reflector) context req)
    = Normal answer.
Proof.
  intros Hno. apply no_bypass_falsy in Hno.
  unfold AppController_test_guards. simpl tryActivate.
  rewrite canActivate_UseAuthGuard, Hno. simpl orb.
  destruct req as [h].
  destruct h as [| |b|n|s|elems|H]; simpl; try (exists false; reflexivity).
  change (mkRequest (JsObject H)) with (request_with H).
  destruct (match H !! "api_key" with
            | Some (JsString key) => String.eqb key "MY_API_KEY"
            | _ => false
            end); [|exists false; reflexivity].
  rewrite canActivate_UseBusinessGuard_mapping.
  destruct (business_verdict H); [exists true | exists false]; reflexivity.
Qed.

Lemma test_route_pass_never_throws_witness :
  exists answer : bool,
    verdict (tryActivate (AppController_test_guards (store_reflector app_metadata))
               (context_of AppController_test) (mkRequest JsNull))
    = Normal answer.
Proof.
  apply (test_route_pass_never_throws (store_reflector app_metadata)
           (context_of AppController_test) (mkRequest JsNull)).
  exact app_test_no_bypass.
Defined.

(** X11: when the order of the two guards matters.  On every request whose
    [headers] is neither [undefined] nor [null], [AuthGuard, BusinessGuard]
    and [BusinessGuard, AuthGuard] end with the same verdict.  On every
    request whose [headers] is [undefined] or [null], with no bypass the
    first order denies and the second throws; with the bypass tag both
    throw. *)
Theorem guard_order_and_verdict (reflector : Reflector)
    (context : ExecutionContext) (req : Request) :
  let auth := UseAuthGuard (AuthGuard.new reflector) in
  let business := UseBusinessGuard BusinessGuard.new in
  (headers req <> JsUndefined -> headers req <> JsNull ->
   verdict (tryActivate [auth; business] context req)
   = verdict (tryActivate [business; auth] context req))
  /\ (headers req = JsUndefined \/ headers req = JsNull ->
      no_bypass (AuthGuard.new reflector) context ->
      verdict (tryActivate [auth; business] context req) = Normal false
      /\ exists e : JsError,
           verdict (tryActivate [business; auth] context req) = Throw e)
  /\ (headers req = JsUndefined \/ headers req = JsNull ->
      (exists tags : list string,
          resolved_metadata (AuthGuard.new reflector) context = Some tags
          /\ "SkipAuthorizationCheck" ∈ tags) ->
      exists e : JsError,
        verdict (tryActivate [auth; business] context req) = Throw e
        /\ verdict (tryActivate [business; auth] context req) = Throw e).
Proof.
  intros auth business. unfold auth, business. split; [|split].
  - intros Hu Hn.
    destruct (BusinessGuard_returns_with_headers BusinessGuard.new context req
                Hu Hn) as [b Eb].
    rewrite (tryActivate_pair (UseAuthGuard (AuthGuard.new reflector))
               (UseBusinessGuard BusinessGuard.new) context req _ b
               (canActivate_UseAuthGuard _ _ _) Eb).
    rewrite (tryActivate_pair (UseBusinessGuard BusinessGuard.new)
               (UseAuthGuard (AuthGuard.new reflector)) context req b _
               Eb (canActivate_UseAuthGuard _ _ _)).
    rewrite andb_comm. reflexivity.
  - intros Hnullish Hno. apply no_bypass_falsy in Hno.
    destruct (BusinessGuard_throws_on_nullish_headers BusinessGuard.new
                context req Hnullish) as [e Ee].
    split.
    + simpl tryActivate. rewrite canActivate_UseAuthGuard, Hno.
      destruct Hnullish as [-> | ->]; reflexivity.
    + exists e. simpl tryActivate.
      change (canActivate (UseBusinessGuard BusinessGuard.new) context req)
        with (BusinessGuard.canActivate BusinessGuard.new context req).
      rewrite Ee. reflexivity.
  - intros Hnullish Hbypass. apply bypass_truthy in Hbypass.
    destruct (BusinessGuard_throws_on_nullish_headers BusinessGuard.new
                context req Hnullish) as [e Ee].
    exists e. split.
    + simpl tryActivate. rewrite canActivate_UseAuthGuard, Hbypass. simpl orb.
      cbv iota beta.
      change (canActivate (UseBusinessGuard BusinessGuard.new) context req)
        with (BusinessGuard.canActivate BusinessGuard.new context req).
      rewrite Ee. reflexivity.
    + simpl tryActivate.
      change (canActivate (UseBusinessGuard BusinessGuard.new) context req)
        with (BusinessGuard.canActivate BusinessGuard.new context req).
      rewrite Ee. reflexivity.
Qed.

(** On the [test] route, with headers that are no mapping but not missing
    either the two orders agree; with [null] headers they part. *)
Lemma guard_order_and_verdict_witness :
  verdict (tryActivate
             [UseAuthGuard app_AuthGuard; UseBusinessGuard BusinessGuard.new]
             (context_of AppController_test) (mkRequest (JsString "raw")))
  = verdict (tryActivate
               [UseBusinessGuard BusinessGuard.new; UseAuthGuard app_AuthGuard]
               (context_of AppController_test) (mkRequest (JsString "raw")))
  /\ verdict (tryActivate
                [UseAuthGuard app_AuthGuard; UseBusinessGuard BusinessGuard.new]
                (context_of AppController_test) (mkRequest JsNull))
     = Normal false.
Proof.
  split.
  - apply (proj1 (guard_order_and_verdict (store_reflector app_metadata)
                    (context_of AppController_test)
                    (mkRequest (JsString "raw")))); discriminate.
  - apply (proj1 (proj2 (guard_order_and_verdict (store_reflector app_metadata)
                           (context_of AppController_test) (mkRequest JsNull)))).
    + right. reflexivity.
    + exact app_test_no_bypass.
Defined.

(** X12: the access the application of [app.controller.ts] grants.  With
    [AuthGuard] bound on the class and the bypass tag on [getPublic] only,
    a request to one of the three routes is dispatched if and only if the
    route is [getPublic] or the request carries the secret ['api_key']; and
    no request makes the pass throw. *)
Theorem app_access (route : Target) (req : Request) :
  route ∈ AppController_routes ->
  (verdict (app_pass route req) = Normal true
   <-> route = AppController_getPublic
       \/ exists H : gmap string JsValue,
            headers req = JsObject H
            /\ header H "api_key" = JsString "MY_API_KEY")
  /\ (exists answer : bool, verdict (app_pass route req) = Normal answer)
  /\ request_after (app_pass route req) = req.
Proof.
  intros Hroute.
  assert (Hpass : app_pass route req
                  = tryActivate [UseAuthGuard app_AuthGuard] (context_of route) req)
    by reflexivity.
  rewrite Hpass. simpl tryActivate. rewrite canActivate_UseAuthGuard.
  rewrite <- credential_verdict_allows.
  unfold AppController_routes in Hroute.
  rewrite !elem_of_cons in Hroute.
  destruct Hroute as [-> | [-> | [-> | Hnil]]]; [| | |inversion Hnil].
  - change (to_boolean (optional_includes
              (resolved_metadata app_AuthGuard (context_of AppController_getHello))
              bypass_tag)) with false.
    simpl orb. destruct (credential_verdict (headers req)); simpl;
      (split; [|split; [eexists; reflexivity | reflexivity]]).
    + split; [intros _; right; reflexivity | reflexivity].
    + split; [discriminate | intros [E | E]; discriminate].
  - change (to_boolean (optional_includes
              (resolved_metadata app_AuthGuard (context_of AppController_test))
              bypass_tag)) with false.
    simpl orb. destruct (credential_verdict (headers req)); simpl;
      (split; [|split; [eexists; reflexivity | reflexivity]]).
    + split; [intros _; right; reflexivity | reflexivity].
    + split; [discriminate | intros [E | E]; discriminate].
  - change (to_boolean (optional_includes
              (resolved_metadata app_AuthGuard (context_of AppController_getPublic))
              bypass_tag)) with true.
    simpl orb. simpl.
    split; [|split; [eexists; reflexivity | reflexivity]].
    split; [intros _; left; reflexivity | reflexivity].
Qed.

Lemma app_access_witness :
  verdict (app_pass AppController_getPublic (request_with ∅)) = Normal true
  /\ verdict (app_pass AppController_getHello (request_with ∅)) <> Normal true.
Proof.
  split.
  - apply (proj1 (app_access AppController_getPublic (request_with ∅)
                    ltac:(vm_compute; set_solver))).
    left. reflexivity.
  - intros E.
    apply (proj1 (app_access AppController_getHello (request_with ∅)
                    ltac:(apply list_elem_of_here))) in E.
    destruct E as [E | (H & E & Hkey)]; [discriminate|].
    inversion E; subst. vm_compute in Hkey. discriminate.
Defined.
